(** * Monitoring notebooks of the news classifier: a shallow embedding

    The two notebooks of the repository are embedded cell by cell: a cell
    is a function of the notebook globals it reads, to the outcome of its
    execution (the values it binds and prints, or the exception it raises).
    Python lists are Rocq lists, [None]-able strings are [option string],
    integers are [Z], metric values are exact rationals [Q]. *)

From Stdlib Require Import ZArith QArith Lia.
From stdpp Require Import base option list list_numbers strings gmap.
From stdpp Require Import sorting.

Local Open Scope Z_scope.

(** ** The fragment of the Python runtime the cells use *)

Module Py.

(** An exception, identified by the name of its class. *)
Inductive exn : Type := Exception (name : string).

Definition IndexError : exn := Exception "IndexError".

(** Executing a statement either completes with a value or raises. *)
Inductive outcome (A : Type) : Type :=
| Ok (a : A)
| Raise (e : exn).
Global Arguments Ok {A} a.
Global Arguments Raise {A} e.

Definition bind {A B} (m : outcome A) (k : A -> outcome B) : outcome B :=
  match m with
  | Ok a => k a
  | Raise e => Raise e
  end.

Definition is_ok {A} (m : outcome A) : bool :=
  match m with Ok _ => true | Raise _ => false end.

(** [l[i]] for an integer index: negative indices count from the end,
    anything outside [-len, len) raises IndexError. *)
Definition getitem {A} (l : list A) (i : Z) : outcome A :=
  let n := Z.of_nat (length l) in
  let j := if i <? 0 then i + n else i in
  if (j <? 0) || (n <=? j) then Raise IndexError
  else match l !! Z.to_nat j with
       | Some x => Ok x
       | None => Raise IndexError
       end.

(** [[x] * n]: [n] copies of [x], none when [n] is not positive. *)
Definition list_mul {A} (x : A) (n : Z) : list A := replicate (Z.to_nat n) x.

(** [range(n)]. *)
Definition range (n : Z) : list Z := seqZ 0 n.

(** [for x in xs: body], threading the variables the body assigns. *)
Fixpoint for_ {A S} (xs : list A) (body : A -> S -> outcome S) (s : S)
  : outcome S :=
  match xs with
  | [] => Ok s
  | x :: xs' => bind (body x s) (for_ xs' body)
  end.

(** [sorted(l)] on numbers: a stable ascending sort. *)
Fixpoint insort (x : Q) (l : list Q) : list Q :=
  match l with
  | [] => [x]
  | y :: l' => if Qle_bool x y then x :: l else y :: insort x l'
  end.

Definition sorted (l : list Q) : list Q := foldr insort [] l.

End Py.

Import Py.

Notation "x <- m ;; k" := (Py.bind m (fun x => k))
  (at level 100, m at next level, right associativity).

(** ** Part 1: bootstrap confidence interval *)

(** A class label is a string. *)
Abbreviation label := string.

(** [bootstrap_distribution(Y_true, Y_pred, N)]: the body the notebook
    ships, [bootstrap_vals = [0]*N; return bootstrap_vals]. *)
Definition bootstrap_distribution (Y_true Y_pred : list label) (N : Z)
  : list Q :=
  let bootstrap_vals := list_mul 0%Q N in
  bootstrap_vals.

Definition NUM_BOOTSTRAP : Z := 1000.

(** The two positions the confidence-interval cells print. *)
Definition ci_of_sorted (bs_vals : list Q) : outcome (Q * Q) :=
  lo <- getitem bs_vals 25 ;;
  hi <- getitem bs_vals 975 ;;
  Ok (lo, hi).

(** The confidence-interval cell, as a function of the three names it
    reads; its value is the pair of bounds it prints. *)
Definition confidence_interval (Y_true Y_pred : list label) (N : Z)
  : outcome (Q * Q) :=
  let bs_vals := bootstrap_distribution Y_true Y_pred N in
  let bs_vals := sorted bs_vals in
  ci_of_sorted bs_vals.




(** ** Part 2: the data the monitoring notebook loads *)

Module Datetime.

(** A [datetime.date], identified by its proleptic Gregorian ordinal
    (what [date.toordinal()] returns); [mkdate y m d] is [date(y, m, d)]. *)
Record date : Type := Date { toordinal : Z }.

Record timedelta : Type := Timedelta { days : Z }.

Definition is_leap (year : Z) : bool :=
  (year mod 4 =? 0) && (negb (year mod 100 =? 0) || (year mod 400 =? 0)).

Definition days_before_year (year : Z) : Z :=
  let y := year - 1 in
  y * 365 + y / 4 - y / 100 + y / 400.

Definition DAYS_BEFORE_MONTH : list Z :=
  [-1; 0; 31; 59; 90; 120; 151; 181; 212; 243; 273; 304; 334].

Definition days_before_month (year month : Z) : Z :=
  DAYS_BEFORE_MONTH !!! Z.to_nat month
  + (if (2 <? month) && is_leap year then 1 else 0).

Definition ymd2ord (year month day : Z) : Z :=
  days_before_year year + days_before_month year month + day.

Definition mkdate (year month day : Z) : date :=
  Date (ymd2ord year month day).

(** [a - b] and [a + delta] on dates. *)
Definition sub (a b : date) : timedelta :=
  Timedelta (toordinal a - toordinal b).

Definition add (a : date) (delta : timedelta) : date :=
  Date (toordinal a + days delta).

Global Instance date_eq_dec : EqDecision date.
Proof. solve_decision. Defined.

(** A timestamp [YYYY-MM-DD HH:MM:SS]: its calendar date and the seconds
    elapsed since midnight. *)
Record timestamp : Type :=
  Timestamp { ts_date : date; ts_seconds : Z }.

End Datetime.

Import Datetime.

Definition LOG_DATE_START : date := mkdate 2022 10 1.
Definition LOG_DATE_END : date := mkdate 2022 10 14.

(** A row of [training.json]. *)
Module Training.
Record row : Type := Row {
  id : Z;
  source : option string;
  title : string;
  description : string;
  url : string;
  label : string;
  embedding : list Q
}.
End Training.

(** The [request] object of a log row. *)
Module Request.
Record t : Type := Make {
  id : Z;
  source : option string;
  title : string;
  url : string;
  rank : string;
  description : string;
  embedding : list Q
}.
End Request.

(** A row of [logs.json]. *)
Module Log.
Record row : Type := Row {
  id : Z;
  timestamp : Datetime.timestamp;
  host_id : string;
  latency_ms : Q;
  request : Request.t;
  pred_label : string;
  pred_score : gmap string Q
}.

(** Modelled from the spec: the [date] column of the [logs] frame, which
    no cell of the notebook creates; it holds the calendar date component
    of the row's timestamp. *)
Definition date (r : row) : Datetime.date := ts_date (timestamp r).
End Log.

(** A row of [annotations.json]. *)
Module Annotation.
Record row : Type := Row { id : Z; label : string }.
End Annotation.

(** A frame as [pd.read_json(..., lines=True)] returns it: its column
    labels (the keys of the JSON rows) and its rows. *)
Module DataFrame.
Record t (R : Type) : Type := Make {
  columns : list string;
  rows : list R
}.
Global Arguments Make {R} columns rows.
Global Arguments columns {R} t.
Global Arguments rows {R} t.
End DataFrame.

Definition TypeError : exn := Exception "TypeError".

(** [s[key]] for a string [s] and a string [key]: string indices must be
    integers, so this raises TypeError whatever the two strings are. *)
Definition str_getitem_str {A} (s key : string) : outcome A :=
  Raise TypeError.

(** [[f(x) for x in xs]]: the elements are evaluated in order, and the
    first exception leaves the comprehension. *)
Fixpoint list_comp {A B} (f : A -> outcome B) (xs : list A)
  : outcome (list B) :=
  match xs with
  | [] => Ok []
  | x :: xs' =>
      Py.bind (f x) (fun y =>
      Py.bind (list_comp f xs') (fun ys => Ok (y :: ys)))
  end.

(** [[row[key] for row in frame]]: iterating a frame yields its column
    labels, which are strings, and each is then indexed by [key]. *)
Definition frame_comp {R A} (frame : DataFrame.t R) (key : string)
  : outcome (list A) :=
  list_comp (fun row => str_getitem_str row key) (DataFrame.columns frame).

(** The notebook globals the cells below read: [training] as the loading
    cell binds it, a frame; [logs] as the rows that the boolean-mask
    selection ranges over. *)
Record globals : Type := Globals {
  training : DataFrame.t Training.row;
  logs : list Log.row;
  true_labels : list Annotation.row
}.

(** ** Part 2: the drift cells *)

(** The dates of the monitoring window, first to last. *)
Definition window : list date :=
  (fun d => Datetime.add LOG_DATE_START (Timedelta d)) <$> seqZ 0 14.

(** Variables of the news-source drift cell, and the lines it prints. *)
Record news_sources_state : Type := NewsSources {
  news_sources_ref : list (option string);
  news_sources_curr_date : option date;
  news_sources_target : list (option string);
  news_sources_drift : list Q;
  news_sources_stdout : list date
}.

(** One iteration of the loop of the news-source cell: steps 1 to 3 are
    comments around the placeholder [news_sources_target = []]. *)
Definition news_sources_body (d : Z) (st : news_sources_state)
  : outcome news_sources_state :=
  let curr_date := Datetime.add LOG_DATE_START (Timedelta d) in
  Ok {| news_sources_ref := news_sources_ref st;
        news_sources_curr_date := Some curr_date;
        news_sources_target := [];
        news_sources_drift := news_sources_drift st;
        news_sources_stdout := news_sources_stdout st ++ [curr_date] |}.

Definition news_sources_cell (g : globals) : outcome news_sources_state :=
  news_sources_ref <- frame_comp (training g) "source" ;;
  let delta := Datetime.sub LOG_DATE_END LOG_DATE_START in
  let news_sources_drift := [] in
  for_ (range (days delta + 1)) news_sources_body
    {| news_sources_ref := news_sources_ref;
       news_sources_curr_date := None;
       news_sources_target := [];
       news_sources_drift := news_sources_drift;
       news_sources_stdout := [] |}.

(** Variables of the embedding drift cell, and the lines it prints. *)
Record embeddings_state : Type := Embeddings {
  embeddings_ref : list (list Q);
  embeddings_curr_date : option date;
  embeddings_target : list (list Q);
  embeddings_drift : list Q;
  embeddings_stdout : list date
}.

Definition embeddings_body (d : Z) (st : embeddings_state)
  : outcome embeddings_state :=
  let curr_date := Datetime.add LOG_DATE_START (Timedelta d) in
  Ok {| embeddings_ref := embeddings_ref st;
        embeddings_curr_date := Some curr_date;
        embeddings_target := [];
        embeddings_drift := embeddings_drift st;
        embeddings_stdout := embeddings_stdout st ++ [curr_date] |}.

Definition embeddings_cell (g : globals) : outcome embeddings_state :=
  embeddings_ref <- frame_comp (training g) "embedding" ;;
  let delta := Datetime.sub LOG_DATE_END LOG_DATE_START in
  let embeddings_drift := [] in
  for_ (range (days delta + 1)) embeddings_body
    {| embeddings_ref := embeddings_ref;
       embeddings_curr_date := None;
       embeddings_target := [];
       embeddings_drift := embeddings_drift;
       embeddings_stdout := [] |}.

(** ** Part 2: selecting the log rows of one date *)

(** [logs[logs['date'] == d]]: the boolean-mask selection keeps the rows
    whose mask entry holds, in frame order. *)
Definition rows_on_date (logs : list Log.row) (d : date) : list Log.row :=
  filter (fun r => Log.date r = d) logs.

(** [logs[logs['date'] == d]['request'].tolist()], the expression behind
    [logs_10_01] and [logs_10_14]. *)
Definition requests_on_date (logs : list Log.row) (d : date)
  : list Request.t :=
  Log.request <$> rows_on_date logs d.

Definition logs_10_01 (g : globals) : list Request.t :=
  requests_on_date (logs g) LOG_DATE_START.

Definition logs_10_14 (g : globals) : list Request.t :=
  requests_on_date (logs g) LOG_DATE_END.


(** ** Part 2: model performance *)

(** Modelled from the spec: the triple of section 4.5, (predicted label,
    true label, timestamp), that a log row with a matching annotation
    yields. The notebook holds only the task description of the daily
    accuracy, and no code that joins logs and annotations. *)
Record triple : Type := Triple {
  predicted : label;
  truth : label;
  stamp : timestamp
}.

(** Modelled from the spec: the annotation stream indexed by id, behind
    [annotationFor(id) -> optional label]; no cell builds it. *)
Definition annotation_index (rows : list Annotation.row) : gmap Z label :=
  list_to_map ((fun a => (Annotation.id a, Annotation.label a)) <$> rows).

(** Modelled from the spec: the join by id of section 4.5, missing from
    the notebook. A log row with an annotation of its id yields a triple;
    a row without one yields nothing. *)
Definition join (logs : list Log.row) (annotations : gmap Z label)
  : list triple :=
  omap (fun r => (fun l => Triple (Log.pred_label r) l (Log.timestamp r))
                   <$> annotations !! Log.id r) logs.

(** Modelled from the spec: a (true, predicted) pair counts for the
    numerator when predicted = true. *)
Definition correct (p : label * label) : Prop := p.1 = p.2.

Global Instance correct_dec p : Decision (correct p).
Proof. unfold correct. apply _. Defined.

(** Modelled from the spec: accuracy, which the notebooks leave to
    scikit-learn: the count of pairs with predicted = true over the count
    of pairs, as an exact rational; no value on the empty collection. *)
Definition accuracy (pairs : list (label * label)) : option Q :=
  match pairs with
  | [] => None
  | _ => Some (Z.of_nat (length (filter correct pairs))
               # Pos.of_nat (length pairs))
  end.

(** Modelled from the spec: [accuracy_score(Y_true, Y_pred)] of
    scikit-learn, accuracy of the two parallel label sequences. *)
Definition accuracy_score (Y_true Y_pred : list label) : option Q :=
  accuracy (zip Y_true Y_pred).

(** Modelled from the spec: a joined triple belongs to the date of its
    timestamp. *)
Definition on_date (d : date) (t : triple) : Prop := ts_date (stamp t) = d.

Global Instance on_date_dec d t : Decision (on_date d t).
Proof. unfold on_date. apply _. Defined.

(** Modelled from the spec: the (true, predicted) pairs of the joined
    triples of one date. *)
Definition pairs_on (joined : list triple) (d : date)
  : list (label * label) :=
  (fun t => (truth t, predicted t)) <$> filter (on_date d) joined.

(** Modelled from the spec: daily accuracy (section 4.5), missing from the
    notebook: the accuracy over the joined triples of the date; [None]
    stands for a date left out of the output. *)
Definition daily_accuracy (joined : list triple) (d : date) : option Q :=
  accuracy (pairs_on joined d).

(** The log rows that count for a date: those of that date with an
    annotation, and among them those predicted as annotated. *)
Definition annotated_on (annotations : gmap Z label) (d : date)
  (r : Log.row) : Prop :=
  ts_date (Log.timestamp r) = d /\ is_Some (annotations !! Log.id r).

Definition right_on (annotations : gmap Z label) (d : date)
  (r : Log.row) : Prop :=
  ts_date (Log.timestamp r) = d /\
  annotations !! Log.id r = Some (Log.pred_label r).

Global Instance annotated_on_dec annotations d r :
  Decision (annotated_on annotations d r).
Proof. unfold annotated_on. apply _. Defined.

Global Instance right_on_dec annotations d r :
  Decision (right_on annotations d r).
Proof. unfold right_on. apply _. Defined.

(** Modelled from the spec: one bootstrap resample, missing from
    [bootstrap_distribution]: the labels at a list of indices drawn from
    the original index set. *)
Definition resample (Y : list label) (indices : list nat) : list label :=
  omap (fun i => Y !! i) indices.

(** ** Concrete inputs *)

Definition training_row (i : Z) (src : option string) (lbl : string)
  : Training.row :=
  Training.Row i src "" "" "" lbl [].

Definition log_row (i : Z) (day seconds : Z) (src : option string)
  (pred : string) : Log.row :=
  Log.Row i (Timestamp (mkdate 2022 10 day) seconds) "host_1" 100
    (Request.Make i src "" "" "5" "" []) pred ∅.

(** The training frame of a list of rows, under the columns of
    [training.json]. *)
Definition training_frame (rows : list Training.row)
  : DataFrame.t Training.row :=
  DataFrame.Make
    ["id"; "source"; "title"; "description"; "url"; "label"; "embedding"]
    rows.

(** Three training rows from two sources, and two requests on the first
    day, both from one of them. *)
Definition g_sources : globals :=
  Globals
    (training_frame
       [training_row 1 (Some "Reuters") "Business";
        training_row 2 (Some "Reuters") "Sports";
        training_row 3 (Some "BBC") "Sports"])
    [log_row 10 1 0 (Some "BBC") "Sports";
     log_row 11 1 60 (Some "BBC") "Sports"]
    [].

(** Training rows with a null source and an empty-string source, and a
    request with a null source on the first day. *)
Definition g_null : globals :=
  Globals
    (training_frame
       [training_row 1 None "Business";
        training_row 2 (Some "") "Sports";
        training_row 3 (Some "Reuters") "Sports"])
    [log_row 10 1 0 None "Sports"]
    [].


(** Five log rows dated 2022-10-01 through 2022-10-03. *)
Definition logs_5 : list Log.row :=
  [log_row 1 1 30 None "Business";
   log_row 2 2 86399 None "Sports";
   log_row 3 3 0 None "Sports";
   log_row 4 2 0 None "Health";
   log_row 5 1 7200 None "Toons"].

(** Ten log rows of one day and seven annotations: ids 8 to 10 have none;
    five of the seven annotated predictions are right. *)
Definition logs_10 : list Log.row :=
  (fun i => log_row i 5 i None "Sports") <$> seqZ 1 10.

Definition annotations_7 : list Annotation.row :=
  [Annotation.Row 1 "Sports"; Annotation.Row 2 "Sports";
   Annotation.Row 3 "Health"; Annotation.Row 4 "Sports";
   Annotation.Row 5 "Sports"; Annotation.Row 6 "Business";
   Annotation.Row 7 "Sports"].

(** ** Part 1: preparing the evaluation data *)

(** A row of the Part 1 datasets ([training.json], [validation.json]). *)
Module Article.
Record row : Type := Row {
  description : string;
  id : Z;
  label : string;
  source : string;
  title : string;
  url : string
}.
End Article.

(** The [Datasets] dictionary once the loading cell has filled its two
    keys. *)
Record datasets : Type := Datasets {
  ds_training : list Article.row;
  ds_validation : list Article.row
}.

(** The four lists of the data preparation cell. *)
Record prepared : Type := Prepared {
  X_train : list string;
  Y_train : list label;
  X_test : list string;
  Y_true : list label
}.

(** Body of [for row in Datasets['training']]: two appends. *)
Definition prepare_train_body (row : Article.row) (st : prepared)
  : outcome prepared :=
  Ok {| X_train := X_train st ++ [Article.description row];
        Y_train := Y_train st ++ [Article.label row];
        X_test := X_test st;
        Y_true := Y_true st |}.

(** Body of [for row in Datasets['validation']]: two appends. *)
Definition prepare_test_body (row : Article.row) (st : prepared)
  : outcome prepared :=
  Ok {| X_train := X_train st;
        Y_train := Y_train st;
        X_test := X_test st ++ [Article.description row];
        Y_true := Y_true st ++ [Article.label row] |}.

(** The data preparation cell. *)
Definition prepare_data (D : datasets) : outcome prepared :=
  st <- for_ (ds_training D) prepare_train_body (Prepared [] [] [] []) ;;
  for_ (ds_validation D) prepare_test_body st.

(** [Y_pred = [classifier.predict_label(x) for x in X_test]]; the
    classifier is the fitted model, taken as the function from a
    description to the label it predicts. *)
Definition predict_all (predict_label : string -> label)
  (X_test : list string) : list label :=
  predict_label <$> X_test.

(** ** Part 2: the UMAP scatter cells *)

Definition ValueError : exn := Exception "ValueError".

(** A row [[x, y, label]] of [final_df]. *)
Definition scatter_row : Type := Q * Q * string.

(** The row made of the first two coordinates of a point. *)
Definition point_row (name : string) (ut : list Q) : scatter_row :=
  (nth 0 ut 0%Q, nth 1 ut 0%Q, name).

Section Sampling.

(** The state of the random generator, and the positions it draws for a
    sample of [k] out of a population of [n]. *)
Context {rng : Type}.
Variable draw : rng -> nat -> nat -> list nat * rng.

(** [random.sample(population, k)]: ValueError unless [0 <= k <= n], else
    the elements at the drawn positions. *)
Definition sample {A} (population : list A) (k : Z) (s : rng)
  : outcome (list A * rng) :=
  let n := Z.of_nat (length population) in
  if (k <? 0) || (n <? k) then Raise ValueError
  else
    let ps := draw s (length population) (Z.to_nat k) in
    Ok (omap (fun p => population !! p) ps.1, ps.2).

(** [final_df.append([ut[0], ut[1], name])]. *)
Definition scatter_append (name : string) (ut : list Q)
  (final_df : list scatter_row) : outcome (list scatter_row) :=
  x <- getitem ut 0 ;;
  y <- getitem ut 1 ;;
  Ok (final_df ++ [(x, y, name)]).

(** A scatter cell, as a function of the two point lists it reads: 2000
    sampled reference points, then 2000 sampled target points. Both cells
    (first day, last day) name their target rows 'target(10/01)'. The
    index that [enumerate] pairs with each point is not used. *)
Definition scatter_cell (umap_ref umap_target : list (list Q)) (s : rng)
  : outcome (list scatter_row * rng) :=
  let final_df := [] in
  Py.bind (sample umap_ref 2000 s) (fun r1 =>
  final_df <- for_ r1.1 (scatter_append "reference") final_df ;;
  Py.bind (sample umap_target 2000 r1.2) (fun r2 =>
  final_df <- for_ r2.1 (scatter_append "target(10/01)") final_df ;;
  Ok (final_df, r2.2))).

End Sampling.

(** A generator that always draws the first [k] positions. *)
Definition draw_first (s : unit) (n k : nat) : list nat * unit :=
  (seq 0 k, s).

(** ** Further concrete inputs *)

(** A thousand bootstrap values in descending order, 999 down to 0. *)
Definition bs_descending : list Q :=
  (fun i => inject_Z (999 - i)) <$> seqZ 0 1000.

(** Two thousand two-dimensional points. *)
Definition points_2000 : list (list Q) :=
  (fun i => [inject_Z i; inject_Z (2 * i)]) <$> seqZ 0 2000.

(** * Properties *)

(** *** Facts about the runtime fragment *)

Lemma length_insort x l : length (insort x l) = S (length l).
Proof.
  induction l as [|y l IH]; simpl; [done|].
  destruct (Qle_bool x y); simpl; by rewrite ?IH.
Qed.

Lemma length_sorted l : length (sorted l) = length l.
Proof.
  induction l as [|x l IH]; simpl; [done|].
  by rewrite length_insort, IH.
Qed.

Lemma sorted_replicate_0 n : sorted (replicate n 0%Q) = replicate n 0%Q.
Proof.
  induction n as [|n IH]; simpl; [done|].
  change (foldr insort [] (replicate n 0%Q)) with (sorted (replicate n 0%Q)).
  rewrite IH. by destruct n.
Qed.

Lemma getitem_nonneg {A} (l : list A) (i : Z) :
  0 <= i ->
  getitem l i =
    match l !! Z.to_nat i with Some x => Ok x | None => Raise IndexError end.
Proof.
  intros Hi. unfold getitem.
  destruct (i <? 0) eqn:Hneg; [apply Z.ltb_lt in Hneg; lia|].
  destruct (i <? 0); simpl.
  - done.
  - destruct (Z.of_nat (length l) <=? i) eqn:Hle; [|done].
    apply Z.leb_le in Hle.
    rewrite lookup_ge_None_2; [done|lia].
Qed.

Lemma getitem_ok_iff {A} (l : list A) (i : Z) :
  0 <= i -> is_ok (getitem l i) = true <-> i < Z.of_nat (length l).
Proof.
  intros Hi. rewrite getitem_nonneg by done.
  destruct (l !! Z.to_nat i) eqn:Hl; simpl.
  - apply lookup_lt_Some in Hl. split; [lia|done].
  - apply lookup_ge_None in Hl. split; [done|lia].
Qed.

Lemma ci_of_sorted_cases (bs_vals : list Q) :
  ci_of_sorted bs_vals =
    if (976 <=? Z.of_nat (length bs_vals))
    then Ok (nth 25 bs_vals 0%Q, nth 975 bs_vals 0%Q)
    else Raise IndexError.
Proof.
  unfold ci_of_sorted.
  rewrite !getitem_nonneg by lia.
  change (Z.to_nat 25) with 25%nat. change (Z.to_nat 975) with 975%nat.
  destruct (976 <=? Z.of_nat (length bs_vals)) eqn:Hlen.
  - apply Z.leb_le in Hlen.
    destruct (lookup_lt_is_Some_2 bs_vals 25) as [lo Hlo]; [lia|].
    destruct (lookup_lt_is_Some_2 bs_vals 975) as [hi Hhi]; [lia|].
    rewrite Hlo. simpl. rewrite Hhi. simpl.
    by rewrite (nth_lookup_Some _ _ _ _ Hlo), (nth_lookup_Some _ _ _ _ Hhi).
  - apply Z.leb_gt in Hlen.
    destruct (bs_vals !! 25%nat); simpl; [|done].
    rewrite lookup_ge_None_2; [done|lia].
Qed.

Lemma length_bootstrap_distribution Y_true Y_pred N :
  Z.of_nat (length (bootstrap_distribution Y_true Y_pred N)) = Z.max 0 N.
Proof.
  unfold bootstrap_distribution, list_mul. rewrite length_replicate. lia.
Qed.

Lemma confidence_interval_cases Y_true Y_pred N :
  confidence_interval Y_true Y_pred N =
    if 976 <=? N then Ok (0%Q, 0%Q) else Raise IndexError.
Proof.
  unfold confidence_interval. rewrite ci_of_sorted_cases, length_sorted.
  rewrite length_bootstrap_distribution.
  destruct (976 <=? N) eqn:HN.
  - apply Z.leb_le in HN.
    replace (976 <=? Z.max 0 N) with true by (symmetry; apply Z.leb_le; lia).
    unfold bootstrap_distribution, list_mul. rewrite sorted_replicate_0.
    rewrite !nth_lookup, !lookup_replicate_2 by lia. done.
  - apply Z.leb_gt in HN.
    by replace (976 <=? Z.max 0 N) with false by (symmetry; apply Z.leb_gt; lia).
Qed.

(** *** The confidence-interval cells *)

(** C10: the confidence-interval step reads the sorted list at the fixed
    positions 25 and 975 whatever the trial count N is: both reads are in
    bounds exactly when the list [bootstrap_distribution] returned has at
    least 976 elements, they are for N = 1000, and for every N below 976
    the cell fails with an out-of-range index error. *)
Theorem ci_fixed_positions (Y_true Y_pred : list label) (N : Z) :
  (is_ok (confidence_interval Y_true Y_pred N) = true <->
     (976 <= length (bootstrap_distribution Y_true Y_pred N))%nat) /\
  (forall bs_vals : list Q,
     is_ok (ci_of_sorted bs_vals) = true <-> (976 <= length bs_vals)%nat) /\
  is_ok (confidence_interval Y_true Y_pred NUM_BOOTSTRAP) = true /\
  (N < 976 -> confidence_interval Y_true Y_pred N = Raise IndexError).
Proof.
  assert (Hstep : forall bs_vals : list Q,
             is_ok (ci_of_sorted bs_vals) = true <-> (976 <= length bs_vals)%nat).
  { intros bs_vals. rewrite ci_of_sorted_cases.
    destruct (976 <=? Z.of_nat (length bs_vals)) eqn:Hlen; simpl.
    - apply Z.leb_le in Hlen. split; [lia|done].
    - apply Z.leb_gt in Hlen. split; [done|lia]. }
  split; [|split; [exact Hstep|split]].
  - unfold confidence_interval. rewrite Hstep, length_sorted. done.
  - by rewrite confidence_interval_cases.
  - intros HN. rewrite confidence_interval_cases.
    by replace (976 <=? N) with false by (symmetry; apply Z.leb_gt; lia).
Qed.

Lemma ci_fixed_positions_witness :
  confidence_interval ["Sports"; "Health"] ["Sports"; "Sports"] 975
  = Raise IndexError.
Proof.
  apply (ci_fixed_positions ["Sports"; "Health"] ["Sports"; "Sports"] 975).
  lia.
Defined.




(** C2, at the input Y_true = Y_pred = ['Health'], N = 1000: every
    resample of the single index has accuracy 1, so the reported bounds
    would be 1 and 1; the cell reports 0 and 0, because
    [bootstrap_distribution] returns N zeros without resampling. *)
Theorem bootstrap_ignores_labels :
  bootstrap_distribution ["Health"] ["Health"] 1000 = replicate 1000 0%Q /\
  confidence_interval ["Health"] ["Health"] 1000 = Ok (0%Q, 0%Q) /\
  (forall indices : list nat,
     length indices = 1%nat -> Forall (fun i => (i < 1)%nat) indices ->
     accuracy_score (resample ["Health"] indices) (resample ["Health"] indices)
     = Some 1%Q).
Proof.
  split; [reflexivity|split].
  - by rewrite confidence_interval_cases.
  - intros [|i [|? ?]] Hlen Hall; simplify_eq/=.
    apply Forall_cons in Hall as [Hi _].
    replace i with 0%nat by lia. reflexivity.
Qed.

(** *** The drift cells *)

Lemma frame_comp_cases {R A} (frame : DataFrame.t R) (key : string) :
  frame_comp (A := A) frame key =
    match DataFrame.columns frame with
    | [] => Ok []
    | _ :: _ => Raise TypeError
    end.
Proof. unfold frame_comp. by destruct (DataFrame.columns frame). Qed.

Lemma news_sources_cell_run (g : globals) :
  news_sources_cell g =
    match DataFrame.columns (training g) with
    | [] => Ok {| news_sources_ref := [];
                  news_sources_curr_date := Some LOG_DATE_END;
                  news_sources_target := [];
                  news_sources_drift := [];
                  news_sources_stdout := window |}
    | _ :: _ => Raise TypeError
    end.
Proof.
  unfold news_sources_cell. rewrite frame_comp_cases.
  by destruct (DataFrame.columns (training g)).
Qed.

Lemma embeddings_cell_run (g : globals) :
  embeddings_cell g =
    match DataFrame.columns (training g) with
    | [] => Ok {| embeddings_ref := [];
                  embeddings_curr_date := Some LOG_DATE_END;
                  embeddings_target := [];
                  embeddings_drift := [];
                  embeddings_stdout := window |}
    | _ :: _ => Raise TypeError
    end.
Proof.
  unfold embeddings_cell. rewrite frame_comp_cases.
  by destruct (DataFrame.columns (training g)).
Qed.

(** C1, at the input [g_sources] (reference sources Reuters, Reuters, BBC;
    the first day's requests both from BBC): the claim has the detector
    return a chi-square p-value for the day, over the categories Reuters
    and BBC with target counts 0 and 2. The cell raises TypeError at its
    first statement, which indexes the column labels of the training
    frame; and on no input does it store a p-value: when it completes, the
    target is the placeholder empty list and the drift list is empty. *)
Theorem news_sources_no_pvalue :
  news_sources_cell g_sources = Raise TypeError /\
  Training.source <$> DataFrame.rows (training g_sources)
    = [Some "Reuters"; Some "Reuters"; Some "BBC"] /\
  Request.source <$> requests_on_date (logs g_sources) LOG_DATE_START
    = [Some "BBC"; Some "BBC"] /\
  (forall g,
     match news_sources_cell g with
     | Ok st => news_sources_target st = [] /\ news_sources_drift st = []
     | Raise e => e = TypeError
     end).
Proof.
  split; [reflexivity|]. split; [reflexivity|]. split; [reflexivity|].
  intros g. rewrite news_sources_cell_run.
  by destruct (DataFrame.columns (training g)).
Qed.

(** C4, at the input [g_null] (reference sources null, empty string and
    Reuters; one first-day request with a null source): the claim has the
    null and the empty string counted under one reserved value on both
    sides. The cell raises TypeError at its first statement; and on no
    input does a source value, missing or not, reach a list that could be
    counted: when the cell completes, the reference list and the target
    list are both empty. *)
Theorem null_sources_not_mapped :
  news_sources_cell g_null = Raise TypeError /\
  Training.source <$> DataFrame.rows (training g_null)
    = [None; Some ""; Some "Reuters"] /\
  Request.source <$> requests_on_date (logs g_null) LOG_DATE_START
    = [None] /\
  (forall g,
     match news_sources_cell g with
     | Ok st => news_sources_ref st = [] /\ news_sources_target st = []
     | Raise e => e = TypeError
     end).
Proof.
  split; [reflexivity|]. split; [reflexivity|]. split; [reflexivity|].
  intros g. rewrite news_sources_cell_run.
  by destruct (DataFrame.columns (training g)).
Qed.




(** C8, on every input: neither drift cell ever stores a result, where the
    claim has one per date and feature. On a training frame with at least
    one column both cells raise TypeError at their first statement, before
    their loops. On a frame without columns both loops run: they visit the
    fourteen dates from LOG_DATE_START to LOG_DATE_END in ascending order
    and store nothing. An iteration of either loop reads nothing that an
    earlier iteration computed for its day (the day's date and target). *)
Theorem drift_cells_store_nothing (g : globals) :
  match DataFrame.columns (training g) with
  | [] =>
      exists ns es,
        news_sources_cell g = Ok ns /\ embeddings_cell g = Ok es /\
        news_sources_stdout ns = window /\ embeddings_stdout es = window /\
        news_sources_drift ns = [] /\ embeddings_drift es = []
  | _ :: _ =>
      news_sources_cell g = Raise TypeError /\
      embeddings_cell g = Raise TypeError
  end /\
  head window = Some LOG_DATE_START /\ last window = Some LOG_DATE_END /\
  length window = 14%nat /\
  (forall i a b, window !! i = Some a -> window !! S i = Some b ->
                 toordinal b = toordinal a + 1) /\
  (forall d r cd tg dr out,
     news_sources_body d (NewsSources r cd tg dr out)
     = news_sources_body d (NewsSources r None [] dr out)) /\
  (forall d r cd tg dr out,
     embeddings_body d (Embeddings r cd tg dr out)
     = embeddings_body d (Embeddings r None [] dr out)).
Proof.
  split.
  { rewrite news_sources_cell_run, embeddings_cell_run.
    destruct (DataFrame.columns (training g)); [|done].
    do 2 eexists. by repeat split. }
  split; [reflexivity|]. split; [reflexivity|]. split; [reflexivity|].
  split; [|split; reflexivity].
  intros i a b Ha Hb. unfold window in *.
  rewrite list_lookup_fmap in Ha, Hb.
  destruct (seqZ 0 14 !! i) as [x|] eqn:Hx; [|done].
  destruct (seqZ 0 14 !! S i) as [y|] eqn:Hy; [|done].
  apply lookup_seqZ in Hx as [-> _]. apply lookup_seqZ in Hy as [-> _].
  simplify_eq/=. lia.
Qed.

(** *** Selecting the log rows of one date *)

Lemma rows_on_date_app logs1 logs2 d :
  rows_on_date (logs1 ++ logs2) d
  = rows_on_date logs1 d ++ rows_on_date logs2 d.
Proof. apply filter_app. Qed.

(** C7: the selection by date returns exactly the rows whose timestamp has
    that calendar date, whatever their time of day, in the order of the
    stored sequence; it is a total function, and its result is empty
    exactly when no row has the date. *)
Theorem rows_on_date_exact (logs : list Log.row) (d : date) :
  (forall r, r ∈ rows_on_date logs d <->
             r ∈ logs /\ ts_date (Log.timestamp r) = d) /\
  rows_on_date logs d `sublist_of` logs /\
  (forall before r after, logs = before ++ r :: after ->
     rows_on_date logs d
     = rows_on_date before d
       ++ (if decide (ts_date (Log.timestamp r) = d) then [r] else [])
       ++ rows_on_date after d) /\
  requests_on_date logs d = Log.request <$> rows_on_date logs d /\
  (requests_on_date logs d = [] <->
   Forall (fun r => ts_date (Log.timestamp r) <> d) logs).
Proof.
  split; [|split; [|split; [|split]]].
  - intros r. unfold rows_on_date. rewrite list_elem_of_filter.
    unfold Log.date. tauto.
  - apply sublist_filter.
  - intros before r after ->. rewrite rows_on_date_app. f_equal.
    unfold rows_on_date. rewrite filter_cons. unfold Log.date.
    by destruct (decide (ts_date (Log.timestamp r) = d)).
  - reflexivity.
  - split.
    + intros Hnil. unfold requests_on_date in Hnil.
      apply fmap_nil_inv in Hnil. apply Forall_forall. intros r Hr Hd.
      assert (r ∈ rows_on_date logs d) as Hin
        by (apply list_elem_of_filter; done).
      rewrite Hnil in Hin. by apply not_elem_of_nil in Hin.
    + intros Hall. unfold requests_on_date, rows_on_date.
      induction Hall as [|r l Hr Hall IH]; [done|].
      rewrite filter_cons. unfold Log.date at 1.
      destruct (decide (ts_date (Log.timestamp r) = d)); [done|]. apply IH.
Qed.

Lemma rows_on_date_exact_witness :
  Log.id <$> rows_on_date logs_5 (mkdate 2022 10 2) = [2; 4] /\
  requests_on_date logs_5 (mkdate 2022 10 9) = [].
Proof.
  split.
  - pose proof (rows_on_date_exact logs_5 (mkdate 2022 10 2))
      as (_ & _ & Hsplit & _).
    rewrite (Hsplit [log_row 1 1 30 None "Business"]
               (log_row 2 2 86399 None "Sports")
               [log_row 3 3 0 None "Sports"; log_row 4 2 0 None "Health";
                log_row 5 1 7200 None "Toons"] eq_refl).
    reflexivity.
  - apply (rows_on_date_exact logs_5 (mkdate 2022 10 9)).
    repeat constructor; discriminate.
Defined.

(** *** Accuracy over joined triples *)

Lemma accuracy_Some pairs :
  pairs <> [] ->
  accuracy pairs
  = Some (Z.of_nat (length (filter correct pairs)) # Pos.of_nat (length pairs)).
Proof. by destruct pairs. Qed.

Lemma accuracy_Permutation pairs pairs' :
  pairs ≡ₚ pairs' -> accuracy pairs = accuracy pairs'.
Proof.
  intros Hp. destruct pairs as [|p pairs].
  - apply Permutation_nil_l in Hp. by subst.
  - destruct pairs' as [|p' pairs'].
    + by apply Permutation_nil_r in Hp.
    + rewrite !accuracy_Some by done. by rewrite Hp.
Qed.

Lemma accuracy_bounds pairs q :
  accuracy pairs = Some q -> (0 <= q <= 1)%Q.
Proof.
  destruct pairs as [|p pairs]; [done|].
  rewrite accuracy_Some by done. intros [= <-].
  pose proof (length_filter correct (p :: pairs)) as Hle.
  set (n := length (p :: pairs)) in *.
  set (c := length (filter correct (p :: pairs))) in *.
  assert (Z.pos (Pos.of_nat n) = Z.of_nat n) as Hn.
  { rewrite <- positive_nat_Z. f_equal. by rewrite Nat2Pos.id. }
  unfold Qle. cbn [Qnum Qden]. change (S (length pairs)) with n.
  rewrite Hn. split; lia.
Qed.

Lemma join_cons r logs annotations :
  join (r :: logs) annotations =
    match annotations !! Log.id r with
    | Some l => Triple (Log.pred_label r) l (Log.timestamp r)
                :: join logs annotations
    | None => join logs annotations
    end.
Proof. unfold join. simpl. by destruct (annotations !! Log.id r). Qed.

Lemma join_app logs1 logs2 annotations :
  join (logs1 ++ logs2) annotations
  = join logs1 annotations ++ join logs2 annotations.
Proof. apply omap_app. Qed.

Lemma pairs_on_cons t joined d :
  pairs_on (t :: joined) d =
    if decide (ts_date (stamp t) = d)
    then (truth t, predicted t) :: pairs_on joined d
    else pairs_on joined d.
Proof.
  unfold pairs_on. rewrite filter_cons. unfold on_date at 1.
  by destruct (decide (ts_date (stamp t) = d)).
Qed.

Lemma length_pairs_on_join logs annotations d :
  length (pairs_on (join logs annotations) d)
  = length (filter (annotated_on annotations d) logs).
Proof.
  induction logs as [|r logs IH]; [done|].
  rewrite join_cons, filter_cons.
  destruct (decide (annotated_on annotations d r)) as [[Hd [l Hl]]|Hno].
  - rewrite Hl, pairs_on_cons. simpl.
    destruct (decide (ts_date (Log.timestamp r) = d)); [|done].
    simpl. by rewrite IH.
  - destruct (annotations !! Log.id r) as [l|] eqn:Hl; [|done].
    rewrite pairs_on_cons. simpl.
    destruct (decide (ts_date (Log.timestamp r) = d)) as [Hd|]; [|done].
    exfalso. apply Hno. split; [done|]. rewrite Hl. by eexists.
Qed.

Lemma length_correct_pairs_on_join logs annotations d :
  length (filter correct (pairs_on (join logs annotations) d))
  = length (filter (right_on annotations d) logs).
Proof.
  induction logs as [|r logs IH]; [done|].
  rewrite join_cons, (filter_cons (right_on annotations d)).
  destruct (annotations !! Log.id r) as [l|] eqn:Hl.
  - rewrite pairs_on_cons. simpl.
    destruct (decide (ts_date (Log.timestamp r) = d)) as [Hd|Hd].
    + rewrite filter_cons. unfold correct at 1. simpl.
      destruct (decide (l = Log.pred_label r)) as [->|Hne].
      * rewrite decide_True by (split; [exact Hd|exact Hl]).
        simpl. by rewrite IH.
      * rewrite decide_False; [done|].
        intros [_ Heq]. rewrite Hl in Heq. congruence.
    + rewrite decide_False by (intros [? _]; done). done.
  - rewrite decide_False; [done|].
    intros [_ Heq]. rewrite Hl in Heq. done.
Qed.

(** C6: daily accuracy is computed over the joined triples only. A log
    row without an annotation of its id contributes nothing to the join,
    so it is in neither count; and for each date the accuracy is the
    number of that date's annotated rows predicted as annotated, over the
    number of that date's annotated rows (no value when there are none). *)
Theorem daily_accuracy_joined_only
  (logs : list Log.row) (annotations : gmap Z label) (d : date) :
  (forall before r after,
     logs = before ++ r :: after -> annotations !! Log.id r = None ->
     join logs annotations = join (before ++ after) annotations) /\
  length (join logs annotations)
  = length (filter (fun r => is_Some (annotations !! Log.id r)) logs) /\
  daily_accuracy (join logs annotations) d =
    (if decide (length (filter (annotated_on annotations d) logs) = 0%nat)
     then None
     else Some (Z.of_nat (length (filter (right_on annotations d) logs))
                # Pos.of_nat
                    (length (filter (annotated_on annotations d) logs)))).
Proof.
  split; [|split].
  - intros before r after -> Hnone.
    rewrite !join_app, join_cons, Hnone. done.
  - induction logs as [|r logs IH]; [done|].
    rewrite join_cons, filter_cons.
    destruct (annotations !! Log.id r) as [l|] eqn:Hl.
    + rewrite decide_True by (by eexists). simpl. by rewrite IH.
    + rewrite decide_False by (by intros [? ?]). done.
  - unfold daily_accuracy.
    rewrite <- length_pairs_on_join, <- length_correct_pairs_on_join.
    destruct (pairs_on (join logs annotations) d) as [|p pairs] eqn:Hp.
    + done.
    + rewrite accuracy_Some by done. done.
Qed.

Lemma daily_accuracy_joined_only_witness :
  join logs_10 (annotation_index annotations_7)
  = join (take 7 logs_10 ++ drop 8 logs_10) (annotation_index annotations_7).
Proof.
  apply (proj1 (daily_accuracy_joined_only logs_10
                  (annotation_index annotations_7) (mkdate 2022 10 5))
           (take 7 logs_10) (log_row 8 5 8 None "Sports") (drop 8 logs_10)).
  - reflexivity.
  - reflexivity.
Defined.

Example daily_accuracy_scenario :
  length logs_10 = 10%nat /\
  length (join logs_10 (annotation_index annotations_7)) = 7%nat /\
  daily_accuracy (join logs_10 (annotation_index annotations_7))
    (mkdate 2022 10 5) = Some (5 # 7)%Q.
Proof. repeat split; vm_compute; reflexivity. Qed.

(** C9: daily accuracy is a function of the joined set alone: computed
    again on the same triples, in whatever order they are held, it is the
    same value; and every value it yields lies between 0 and 1. *)
Theorem daily_accuracy_idempotent_bounded
  (joined : list triple) (d : date) :
  (forall joined', joined' ≡ₚ joined ->
                   daily_accuracy joined' d = daily_accuracy joined d) /\
  (forall q, daily_accuracy joined d = Some q -> (0 <= q <= 1)%Q) /\
  (forall t, t ∈ joined -> ts_date (stamp t) = d ->
             is_Some (daily_accuracy joined d)).
Proof.
  split; [|split].
  - intros joined' Hp. unfold daily_accuracy, pairs_on.
    apply accuracy_Permutation. by rewrite Hp.
  - intros q. apply accuracy_bounds.
  - intros t Hin Hd. unfold daily_accuracy.
    assert ((truth t, predicted t) ∈ pairs_on joined d) as Hp.
    { unfold pairs_on. apply list_elem_of_fmap. exists t. split; [done|].
      apply list_elem_of_filter. done. }
    destruct (pairs_on joined d) as [|p pairs]; [by apply not_elem_of_nil in Hp|].
    rewrite accuracy_Some by done. by eexists.
Qed.

Lemma daily_accuracy_idempotent_bounded_witness :
  (0 <= 5 # 7 <= 1)%Q.
Proof.
  apply (daily_accuracy_idempotent_bounded
           (join logs_10 (annotation_index annotations_7)) (mkdate 2022 10 5)).
  vm_compute. reflexivity.
Defined.

(** * Further properties of the notebook code *)

(** *** The sort of the confidence-interval cells *)

Lemma insort_Permutation x l : insort x l ≡ₚ x :: l.
Proof.
  induction l as [|y l IH]; simpl; [done|].
  destruct (Qle_bool x y); [done|].
  rewrite IH. apply Permutation_swap.
Qed.

Lemma sorted_Permutation l : sorted l ≡ₚ l.
Proof.
  induction l as [|x l IH]; simpl; [done|].
  change (foldr insort [] l) with (sorted l).
  by rewrite insort_Permutation, IH.
Qed.

Lemma Qle_bool_false x y : Qle_bool x y = false -> (y <= x)%Q.
Proof.
  intros Hb. apply Qlt_le_weak, Qnot_le_lt. intros Hle.
  apply Qle_bool_iff in Hle. congruence.
Qed.

Lemma insort_StronglySorted x l :
  StronglySorted Qle l -> StronglySorted Qle (insort x l).
Proof.
  induction 1 as [|y l Hl IH Hy]; simpl.
  - repeat constructor.
  - destruct (Qle_bool x y) eqn:Hxy.
    + apply Qle_bool_iff in Hxy. constructor; [by constructor|].
      constructor; [done|].
      eapply Forall_impl; [exact Hy|]. intros z Hz. by eapply Qle_trans.
    + apply Qle_bool_false in Hxy. constructor; [done|].
      rewrite insort_Permutation. by constructor.
Qed.

Lemma sorted_StronglySorted l : StronglySorted Qle (sorted l).
Proof.
  induction l as [|x l IH]; simpl; [constructor|].
  by apply insort_StronglySorted.
Qed.

Lemma StronglySorted_lookup_le (l : list Q) i j a b :
  StronglySorted Qle l -> (i <= j)%nat ->
  l !! i = Some a -> l !! j = Some b -> (a <= b)%Q.
Proof.
  intros Hs. revert i j. induction Hs as [|x l Hl IH Hx]; intros i j Hij Ha Hb.
  - done.
  - destruct i as [|i], j as [|j]; simplify_eq/=.
    + apply Qle_refl.
    + rewrite Forall_forall in Hx. apply Hx. by eapply list_elem_of_lookup_2.
    + lia.
    + apply (IH i j); [lia|done..].
Qed.

(** X1: whatever list of at least 976 values [bootstrap_distribution]
    returns, the confidence-interval cell completes, the lower bound it
    prints is at most the upper bound, and both are values of the list. *)
Theorem ci_bounds_ordered (bs_vals : list Q) :
  (976 <= length bs_vals)%nat ->
  exists lo hi,
    ci_of_sorted (sorted bs_vals) = Ok (lo, hi) /\
    (lo <= hi)%Q /\ lo ∈ bs_vals /\ hi ∈ bs_vals.
Proof.
  intros Hlen.
  rewrite ci_of_sorted_cases, length_sorted.
  replace (976 <=? Z.of_nat (length bs_vals)) with true
    by (symmetry; apply Z.leb_le; lia).
  destruct (lookup_lt_is_Some_2 (sorted bs_vals) 25) as [lo Hlo];
    [rewrite length_sorted; lia|].
  destruct (lookup_lt_is_Some_2 (sorted bs_vals) 975) as [hi Hhi];
    [rewrite length_sorted; lia|].
  rewrite (nth_lookup_Some _ _ _ _ Hlo), (nth_lookup_Some _ _ _ _ Hhi).
  exists lo, hi. split; [done|]. split; [|split].
  - eapply (StronglySorted_lookup_le _ 25 975);
      [apply sorted_StronglySorted|lia|done..].
  - rewrite <- (sorted_Permutation bs_vals). by eapply list_elem_of_lookup_2.
  - rewrite <- (sorted_Permutation bs_vals). by eapply list_elem_of_lookup_2.
Qed.

Lemma ci_bounds_ordered_witness :
  exists lo hi,
    ci_of_sorted (sorted bs_descending) = Ok (lo, hi) /\
    (lo <= hi)%Q /\ lo ∈ bs_descending /\ hi ∈ bs_descending.
Proof.
  apply (ci_bounds_ordered bs_descending). vm_compute. lia.
Defined.

Lemma filter_all {A} (P : A -> Prop) `{!forall x, Decision (P x)} (l : list A) :
  Forall P l -> filter P l = l.
Proof.
  induction 1 as [|x l Hx Hl IH]; [done|].
  rewrite filter_cons, decide_True by done. by rewrite IH.
Qed.

Lemma filter_none {A} (P : A -> Prop) `{!forall x, Decision (P x)} (l : list A) :
  Forall (fun x => ~ P x) l -> filter P l = [].
Proof.
  induction 1 as [|x l Hx Hl IH]; [done|].
  by rewrite filter_cons, decide_False.
Qed.

Lemma ci_of_sorted_Ok (l : list Q) lo hi :
  ci_of_sorted l = Ok (lo, hi) ->
  (976 <= length l)%nat /\ l !! 25%nat = Some lo /\ l !! 975%nat = Some hi.
Proof.
  rewrite ci_of_sorted_cases.
  destruct (976 <=? Z.of_nat (length l)) eqn:Hlen; [|done].
  apply Z.leb_le in Hlen. intros [= <- <-].
  destruct (lookup_lt_is_Some_2 l 25) as [a Ha]; [lia|].
  destruct (lookup_lt_is_Some_2 l 975) as [b Hb]; [lia|].
  rewrite (nth_lookup_Some _ _ _ _ Ha), (nth_lookup_Some _ _ _ _ Hb).
  split; [lia|done].
Qed.

(** X2: when the confidence-interval cell completes on a list of
    bootstrap values, at least 951 of the values lie between the two
    printed bounds, at most 25 lie below the lower bound, and the values
    above the upper bound number at most the length of the list minus 976:
    for 1000 values the interval holds at least 951 of them, with at most
    25 below and at most 24 above. *)
Theorem ci_bounds_coverage (bs_vals : list Q) (lo hi : Q) :
  ci_of_sorted (sorted bs_vals) = Ok (lo, hi) ->
  (951 <= length (filter (fun x => Qle_bool lo x && Qle_bool x hi) bs_vals))%nat /\
  (length (filter (fun x => negb (Qle_bool lo x)) bs_vals) <= 25)%nat /\
  (length (filter (fun x => negb (Qle_bool x hi)) bs_vals) + 976
   <= length bs_vals)%nat.
Proof.
  intros Hci. apply ci_of_sorted_Ok in Hci as (Hlen & Hlo & Hhi).
  pose proof (sorted_StronglySorted bs_vals) as Hs.
  pose proof (sorted_Permutation bs_vals) as Hp.
  rewrite <- !Hp. set (s := sorted bs_vals) in *. clearbody s. clear Hp.
  assert (Hge : Forall (fun x => Qle_bool lo x) (drop 25 s)).
  { apply Forall_lookup. intros i x Hx. rewrite lookup_drop in Hx.
    apply Is_true_true, Qle_bool_iff.
    eapply (StronglySorted_lookup_le s 25 (25 + i)); [done|lia|done..]. }
  assert (Hle : Forall (fun x => Qle_bool x hi) (take 976 s)).
  { apply Forall_lookup. intros i x Hx.
    apply lookup_take_Some in Hx as [Hx Hi].
    apply Is_true_true, Qle_bool_iff.
    eapply (StronglySorted_lookup_le s i 975); [done|lia|done..]. }
  split; [|split].
  - rewrite <- (take_drop 25 s), filter_app, length_app.
    rewrite <- (take_drop 951 (drop 25 s)), filter_app, length_app.
    rewrite (filter_all _ (take 951 (drop 25 s))).
    + rewrite length_take, length_drop. lia.
    + apply Forall_lookup. intros i x Hx.
      apply lookup_take_Some in Hx as [Hx Hi].
      apply andb_True. split.
      * exact (Forall_lookup_1 (fun x => Is_true (Qle_bool lo x)) _ _ _ Hge Hx).
      * rewrite lookup_drop in Hx.
        apply (Forall_lookup_1 (fun x => Is_true (Qle_bool x hi))
                 (take 976 s) (25 + i) x Hle).
        rewrite lookup_take_lt by lia. done.
  - rewrite <- (take_drop 25 s) at 1. rewrite filter_app, length_app.
    rewrite (filter_none _ (drop 25 s)).
    + pose proof (length_filter (fun x => negb (Qle_bool lo x)) (take 25 s)).
      rewrite length_take in *. simpl. lia.
    + eapply Forall_impl; [exact Hge|]. intros x Hx Hn.
      apply negb_True in Hn. done.
  - rewrite <- (take_drop 976 s) at 1. rewrite filter_app, length_app.
    rewrite (filter_none _ (take 976 s)).
    + pose proof (length_filter (fun x => negb (Qle_bool x hi)) (drop 976 s)).
      rewrite length_drop in *. simpl. lia.
    + eapply Forall_impl; [exact Hle|]. intros x Hx Hn.
      apply negb_True in Hn. done.
Qed.

Lemma ci_bounds_coverage_witness :
  (951 <= length (filter (fun x => Qle_bool 25 x && Qle_bool x 975)
                    bs_descending))%nat /\
  (length (filter (fun x => negb (Qle_bool 25 x)) bs_descending) <= 25)%nat /\
  (length (filter (fun x => negb (Qle_bool x 975)) bs_descending) + 976
   <= length bs_descending)%nat.
Proof.
  apply (ci_bounds_coverage bs_descending 25 975). vm_compute. reflexivity.
Defined.

(** *** Preparing the evaluation data *)

Lemma for_prepare_train rows st :
  for_ rows prepare_train_body st =
    Ok {| X_train := X_train st ++ (Article.description <$> rows);
          Y_train := Y_train st ++ (Article.label <$> rows);
          X_test := X_test st;
          Y_true := Y_true st |}.
Proof.
  revert st. induction rows as [|row rows IH]; intros st; simpl.
  - destruct st. by rewrite !app_nil_r.
  - rewrite IH. simpl. by rewrite <- !app_assoc.
Qed.

Lemma for_prepare_test rows st :
  for_ rows prepare_test_body st =
    Ok {| X_train := X_train st;
          Y_train := Y_train st;
          X_test := X_test st ++ (Article.description <$> rows);
          Y_true := Y_true st ++ (Article.label <$> rows) |}.
Proof.
  revert st. induction rows as [|row rows IH]; intros st; simpl.
  - destruct st. by rewrite !app_nil_r.
  - rewrite IH. simpl. by rewrite <- !app_assoc.
Qed.

(** X3: the data preparation cell always completes, and its four lists
    stay aligned with the datasets: descriptions and labels of the
    training rows and of the validation rows, each in dataset order. The
    predictions computed from [X_test] are therefore parallel to [Y_true]:
    same length, and position i of both comes from validation row i. *)
Theorem prepare_data_aligned
  (D : datasets) (predict_label : string -> label) :
  exists st,
    prepare_data D = Ok st /\
    X_train st = Article.description <$> ds_training D /\
    Y_train st = Article.label <$> ds_training D /\
    X_test st = Article.description <$> ds_validation D /\
    Y_true st = Article.label <$> ds_validation D /\
    length (predict_all predict_label (X_test st)) = length (Y_true st) /\
    zip (Y_true st) (predict_all predict_label (X_test st))
    = (fun row => (Article.label row,
                   predict_label (Article.description row)))
        <$> ds_validation D.
Proof.
  unfold prepare_data. rewrite for_prepare_train. simpl.
  rewrite for_prepare_test. simpl. eexists. split; [done|]. simpl.
  repeat split.
  - unfold predict_all. by rewrite !length_fmap.
  - unfold predict_all.
    induction (ds_validation D) as [|row rows IH]; [done|].
    cbn [fmap list_fmap zip zip_with]. f_equal. exact IH.
Qed.

(** *** Composing selections by date *)

Lemma rows_on_date_cons r logs d :
  rows_on_date (r :: logs) d =
    if decide (Log.date r = d) then r :: rows_on_date logs d
    else rows_on_date logs d.
Proof. unfold rows_on_date. by rewrite filter_cons. Qed.

Lemma rows_on_date_date r logs d :
  r ∈ rows_on_date logs d -> Log.date r = d.
Proof. unfold rows_on_date. rewrite list_elem_of_filter. tauto. Qed.

(** X4: selecting by date twice is selecting once, and the selections of
    two different dates share no row: selecting one date out of the rows
    of another yields nothing. In particular the rows behind [logs_10_01]
    and [logs_10_14] are disjoint. *)
Theorem rows_on_date_compose (logs : list Log.row) (d d' : date) :
  rows_on_date (rows_on_date logs d) d = rows_on_date logs d /\
  (d <> d' ->
   rows_on_date (rows_on_date logs d) d' = [] /\
   forall r, r ∈ rows_on_date logs d -> r ∉ rows_on_date logs d') /\
  (forall r, r ∈ rows_on_date logs LOG_DATE_START ->
             r ∉ rows_on_date logs LOG_DATE_END).
Proof.
  assert (Hdisj : forall a b, a <> b ->
            forall r, r ∈ rows_on_date logs a -> r ∉ rows_on_date logs b).
  { intros a b Hab r Ha Hb.
    apply rows_on_date_date in Ha. apply rows_on_date_date in Hb. congruence. }
  split; [|split].
  - apply filter_all. apply Forall_forall. intros r Hr.
    by apply rows_on_date_date in Hr.
  - intros Hne. split; [|by apply Hdisj].
    apply filter_none. apply Forall_forall. intros r Hr Hd'.
    apply rows_on_date_date in Hr. congruence.
  - apply Hdisj. discriminate.
Qed.

Lemma rows_on_date_compose_witness :
  rows_on_date (rows_on_date logs_5 (mkdate 2022 10 1)) (mkdate 2022 10 2)
  = [].
Proof.
  apply (rows_on_date_compose logs_5 (mkdate 2022 10 1) (mkdate 2022 10 2)).
  discriminate.
Defined.

Lemma sum_rows_on_date_cons r logs (ds : list date) :
  NoDup ds ->
  sum_list ((fun d => length (rows_on_date (r :: logs) d)) <$> ds)
  = ((if decide (Log.date r ∈ ds) then 1 else 0)
     + sum_list ((fun d => length (rows_on_date logs d)) <$> ds))%nat.
Proof.
  induction 1 as [|d ds Hd Hnd IH]; [done|].
  cbn [fmap list_fmap sum_list sum_list_with]. rewrite IH.
  rewrite rows_on_date_cons.
  destruct (decide (Log.date r = d)) as [Heq|Hne].
  - subst d.
    rewrite (decide_True (P := Log.date r ∈ Log.date r :: ds)) by left.
    rewrite (decide_False (P := Log.date r ∈ ds)) by done. simpl. lia.
  - destruct (decide (Log.date r ∈ ds)) as [Hin|Hin].
    + rewrite (decide_True (P := Log.date r ∈ d :: ds)) by (by right). lia.
    + rewrite (decide_False (P := Log.date r ∈ d :: ds)); [lia|].
      intros Hc. apply elem_of_cons in Hc as [?|?]; done.
Qed.

(** X5: over any list of distinct dates, the per-date selections split
    the log: every row whose date is listed is selected for exactly one of
    the dates, so the sizes of the selections and the number of rows dated
    outside the list add up to the size of the log. *)
Theorem rows_on_date_partition (logs : list Log.row) (ds : list date) :
  NoDup ds ->
  length logs
  = (sum_list ((fun d => length (rows_on_date logs d)) <$> ds)
     + length (filter (fun r => Log.date r ∉ ds) logs))%nat.
Proof.
  intros Hnd. induction logs as [|r logs IH].
  - simpl. induction ds as [|d ds IHds]; [done|].
    cbn [fmap list_fmap sum_list sum_list_with].
    apply NoDup_cons in Hnd as [_ Hnd]. specialize (IHds Hnd).
    simpl in *. lia.
  - rewrite sum_rows_on_date_cons by done. rewrite filter_cons.
    destruct (decide (Log.date r ∈ ds)) as [Hin|Hin].
    + rewrite decide_False by (intros Hc; done). simpl in *. lia.
    + rewrite decide_True by done. simpl in *. lia.
Qed.

Lemma rows_on_date_partition_witness :
  length logs_5
  = (sum_list ((fun d => length (rows_on_date logs_5 d)) <$> window)
     + length (filter (fun r => Log.date r ∉ window) logs_5))%nat.
Proof.
  apply (rows_on_date_partition logs_5 window).
  apply (bool_decide_unpack _). vm_compute. exact I.
Defined.

(** *** The scatter cells *)

Section SamplingFacts.

Context {rng : Type}.
Variable draw : rng -> nat -> nat -> list nat * rng.

(** What [random.sample] guarantees of the positions it draws: as many as
    asked for, each inside the population. *)
Hypothesis draw_valid : forall s n k,
  (k <= n)%nat ->
  length (draw s n k).1 = k /\ Forall (fun p => (p < n)%nat) (draw s n k).1.

Lemma omap_lookup_length {A} (population : list A) (ps : list nat) :
  Forall (fun p => (p < length population)%nat) ps ->
  length (omap (fun p => population !! p) ps) = length ps.
Proof.
  induction 1 as [|p ps Hp Hps IH]; [done|]. simpl.
  destruct (lookup_lt_is_Some_2 population p Hp) as [x ->]. simpl.
  f_equal. exact IH.
Qed.

Lemma omap_lookup_elem_of {A} (population : list A) (ps : list nat) :
  Forall (fun x => x ∈ population) (omap (fun p => population !! p) ps).
Proof.
  induction ps as [|p ps IH]; simpl; [constructor|].
  destruct (population !! p) as [x|] eqn:Hx; simpl; [|done].
  constructor; [|done]. by eapply list_elem_of_lookup_2.
Qed.

Lemma sample_Ok {A} (population : list A) (k : Z) (s : rng) :
  0 <= k <= Z.of_nat (length population) ->
  exists xs s',
    sample draw population k s = Ok (xs, s') /\
    length xs = Z.to_nat k /\ Forall (fun x => x ∈ population) xs.
Proof.
  intros Hk. unfold sample.
  replace (k <? 0) with false by (symmetry; apply Z.ltb_ge; lia).
  replace (Z.of_nat (length population) <? k) with false
    by (symmetry; apply Z.ltb_ge; lia).
  cbn [orb]. do 2 eexists. split; [done|].
  destruct (draw_valid s (length population) (Z.to_nat k)) as [Hlen Hps];
    [lia|].
  split; [|apply omap_lookup_elem_of].
  by rewrite omap_lookup_length.
Qed.

Lemma sample_Raise {A} (population : list A) (k : Z) (s : rng) :
  Z.of_nat (length population) < k ->
  sample draw population k s = Raise ValueError.
Proof.
  intros Hk. unfold sample.
  replace (Z.of_nat (length population) <? k) with true
    by (symmetry; apply Z.ltb_lt; lia).
  by rewrite orb_true_r.
Qed.

Lemma for_scatter_append name pts final_df :
  Forall (fun ut : list Q => (2 <= length ut)%nat) pts ->
  for_ pts (scatter_append name) final_df
  = Ok (final_df ++ (point_row name <$> pts)).
Proof.
  intros Hpts. revert final_df.
  induction Hpts as [|ut pts Hut Hpts IH]; intros final_df; simpl.
  - by rewrite app_nil_r.
  - unfold scatter_append at 1. rewrite !getitem_nonneg by lia.
    destruct ut as [|x [|y ut]]; simpl in Hut; [lia..|]. simpl.
    rewrite IH. by rewrite <- app_assoc.
Qed.

Lemma point_row_names name pts :
  (point_row name <$> pts).*2 = replicate (length pts) name.
Proof. induction pts as [|ut pts IH]; [done|]. simpl. f_equal. exact IH. Qed.

Lemma point_row_from name (population pts : list (list Q)) :
  Forall (fun ut => ut ∈ population) pts ->
  Forall (fun row : scatter_row =>
            exists ut, ut ∈ population /\ row = point_row name ut)
    (point_row name <$> pts).
Proof.
  intros Hpts. apply Forall_fmap. eapply Forall_impl; [exact Hpts|].
  intros ut Hut. by exists ut.
Qed.

Lemma Forall_elem_of_weaken {A} (P : A -> Prop) (population xs : list A) :
  Forall P population -> Forall (fun x => x ∈ population) xs -> Forall P xs.
Proof.
  intros HP Hxs. eapply Forall_impl; [exact Hxs|].
  intros x Hx. rewrite Forall_forall in HP. by apply HP.
Qed.

Lemma scatter_cell_cases
  (umap_ref umap_target : list (list Q)) (s : rng) :
  Forall (fun ut => (2 <= length ut)%nat) umap_ref ->
  Forall (fun ut => (2 <= length ut)%nat) umap_target ->
  if decide ((2000 <= length umap_ref)%nat /\ (2000 <= length umap_target)%nat)
  then
    exists final_df s',
      scatter_cell draw umap_ref umap_target s = Ok (final_df, s') /\
      length final_df = 4000%nat /\
      final_df.*2
      = replicate 2000 "reference" ++ replicate 2000 "target(10/01)" /\
      Forall (fun row => exists ut,
                ut ∈ umap_ref /\ row = point_row "reference" ut)
        (take 2000 final_df) /\
      Forall (fun row => exists ut,
                ut ∈ umap_target /\ row = point_row "target(10/01)" ut)
        (drop 2000 final_df)
  else scatter_cell draw umap_ref umap_target s = Raise ValueError.
Proof.
  intros Href Htarget.
  assert (Hpts : forall population pts : list (list Q),
            Forall (fun ut => (2 <= length ut)%nat) population ->
            Forall (fun ut => ut ∈ population) pts ->
            Forall (fun ut => (2 <= length ut)%nat) pts)
    by (intros; by eapply Forall_elem_of_weaken).
  unfold scatter_cell.
  destruct (decide ((2000 <= length umap_ref)%nat
                    /\ (2000 <= length umap_target)%nat)) as [[Hr Ht]|Hno].
  - destruct (sample_Ok umap_ref 2000 s) as (pts1 & s1 & Hs1 & Hlen1 & Hin1);
      [lia|].
    rewrite Hs1. cbn [Py.bind fst snd].
    rewrite (for_scatter_append _ pts1) by eauto. cbn [Py.bind app].
    destruct (sample_Ok umap_target 2000 s1)
      as (pts2 & s2 & Hs2 & Hlen2 & Hin2); [lia|].
    rewrite Hs2. cbn [Py.bind fst snd].
    rewrite (for_scatter_append _ pts2) by eauto. cbn [Py.bind].
    change (Z.to_nat 2000) with 2000%nat in *.
    do 2 eexists. split; [done|].
    assert (length (point_row "reference" <$> pts1) = 2000%nat) as Hl1
      by (by rewrite length_fmap).
    split; [|split; [|split]].
    + rewrite length_app, !length_fmap. lia.
    + rewrite fmap_app, !point_row_names. by rewrite Hlen1, Hlen2.
    + rewrite take_app_length' by done. by apply point_row_from.
    + rewrite drop_app_length' by done. by apply point_row_from.
  - destruct (decide (2000 <= length umap_ref)%nat) as [Hr|Hr].
    + destruct (sample_Ok umap_ref 2000 s)
        as (pts1 & s1 & Hs1 & Hlen1 & Hin1); [lia|].
      rewrite Hs1. cbn [Py.bind fst snd].
      rewrite (for_scatter_append _ pts1) by eauto. cbn [Py.bind app].
      rewrite sample_Raise by lia. done.
    + rewrite sample_Raise by lia. done.
Qed.

(** X6: a scatter cell, run on two lists of points with at least two
    coordinates each, fails with ValueError exactly when one of the lists
    has fewer than 2000 points. Otherwise it builds 4000 rows: first 2000
    rows named 'reference', each made of the first two coordinates of a
    reference point, then 2000 rows named 'target(10/01)', each made of the
    first two coordinates of a target point. *)
Theorem scatter_cell_outcome
  (umap_ref umap_target : list (list Q)) (s : rng) :
  Forall (fun ut => (2 <= length ut)%nat) umap_ref ->
  Forall (fun ut => (2 <= length ut)%nat) umap_target ->
  if decide ((2000 <= length umap_ref)%nat /\ (2000 <= length umap_target)%nat)
  then
    exists final_df s',
      scatter_cell draw umap_ref umap_target s = Ok (final_df, s') /\
      length final_df = 4000%nat /\
      final_df.*2
      = replicate 2000 "reference" ++ replicate 2000 "target(10/01)" /\
      Forall (fun row => exists ut,
                ut ∈ umap_ref /\ row = point_row "reference" ut)
        (take 2000 final_df) /\
      Forall (fun row => exists ut,
                ut ∈ umap_target /\ row = point_row "target(10/01)" ut)
        (drop 2000 final_df)
  else scatter_cell draw umap_ref umap_target s = Raise ValueError.
Proof. apply scatter_cell_cases. Qed.

End SamplingFacts.

Lemma draw_first_valid (s : unit) (n k : nat) :
  (k <= n)%nat ->
  length (draw_first s n k).1 = k /\
  Forall (fun p => (p < n)%nat) (draw_first s n k).1.
Proof.
  intros Hk. simpl. split; [apply length_seq|].
  apply Forall_forall. intros p Hp. apply elem_of_seq in Hp. lia.
Qed.

Lemma scatter_cell_outcome_witness :
  scatter_cell draw_first points_2000 (take 1999 points_2000) ()
  = Raise ValueError.
Proof.
  apply (scatter_cell_outcome draw_first draw_first_valid points_2000
           (take 1999 points_2000) ()).
  - apply (bool_decide_unpack _). vm_compute. exact I.
  - apply (bool_decide_unpack _). vm_compute. exact I.
Defined.
